(** * use-file-dialog: a shallow embedding of the [useFileDialog] hook

    Source: packages/@mantine/hooks/src/use-file-dialog/use-file-dialog.ts

    JavaScript objects have an identity; the embedding keeps it as a
    natural number drawn from an allocation counter, so that "the same
    object" and "an equal copy" are different statements.  Mutable DOM
    nodes live in a store ([gmap nat HTMLInputElement]); immutable
    [FileList] snapshots carry their identity with their contents. *)

From Stdlib Require Import String.
From stdpp Require Import base option list gmap strings.

(** ** Platform values *)

(** A [File] handle is opaque to the hook: only its identity matters. *)
Definition File := nat.

(** [FileList]: an ordered, index-addressable collection of files. *)
Record FileList := mkFileList {
  fl_id : nat;            (* object identity *)
  fl_items : list File;   (* item(0), item(1), ... *)
}.

Global Instance FileList_eq_dec : EqDecision FileList.
Proof. solve_decision. Defined.

(** [DataTransfer]: an object with its list of entries ([items]) and its
    list of files ([files]), each an object of its own that stays the same
    for the life of the [DataTransfer]; [files] exposes the file entries
    in insertion order. *)
Record DataTransfer := mkDataTransfer {
  dt_id : nat;            (* identity of the DataTransfer *)
  dt_items_id : nat;      (* identity of the list behind [items] *)
  dt_files_id : nat;      (* identity of the FileList behind [files] *)
  dt_items : list File;   (* the file entries, oldest first *)
}.

(** [new DataTransfer()], paired with the allocation counter.  The counter
    only hands out identities not in use; how many a platform takes is
    not something the hook can observe. *)
Definition new_DataTransfer (next : nat) : DataTransfer * nat :=
  (mkDataTransfer next (S next) (S (S next)) [], S (S (S next))).

(** [result.items.add(file)]: a file entry is appended (adding a [File]
    never rejects or merges an entry) and a new item object is returned,
    which the loop drops. *)
Definition items_add (st : DataTransfer * nat) (file : File)
  : DataTransfer * nat :=
  (mkDataTransfer (dt_id st.1) (dt_items_id st.1) (dt_files_id st.1)
                  (dt_items st.1 ++ [file]),
   S st.2).

Definition dt_files (dt : DataTransfer) : FileList :=
  mkFileList (dt_files_id dt) (dt_items dt).

(** [UseFileDialogOptions['initialFiles']] is [FileList | File[]]. *)
Inductive InitialFiles :=
  | IsFileList (fl : FileList)
  | IsArray (arr : list File).

(** ** getInitialFilesList (lines 35-50)

    [files] is [None] for [undefined].  Both a [FileList] object and an
    array (also the empty array) are truthy, so [!files] holds for
    [undefined] only.  The function threads the allocation counter:
    objects are made on the array path only. *)
Definition getInitialFilesList (files : option InitialFiles) (next : nat)
  : option FileList * nat :=
  match files with
  | None => (None, next)
  | Some (IsFileList fl) => (Some fl, next)
  | Some (IsArray arr) =>
      let '(result, next') :=
        fold_left items_add arr (new_DataTransfer next) in
      (Some (dt_files result), next')
  end.

(** ** Options (lines 4-33)

    An options object is a JavaScript object literal: each property is
    either not an own property of the object ([None]), or an own
    property holding [undefined] ([Some None]) or a value. *)
Definition property (T : Type) : Type := option (option T).

(** [obj.p]: a missing property reads as [undefined]. *)
Definition read {T : Type} (p : property T) : option T := mjoin p.

Record UseFileDialogOptions := mkOptions {
  multiple : property bool;
  accept : property string;
  capture : property string;
  directory : property bool;
  resetOnOpen : property bool;
  initialFiles : property InitialFiles;
  onChange : property nat;     (* the callback, named by its identity *)
  onCancel : property nat;
}.

Definition absent {T : Type} : property T := None.
Definition given {T : Type} (v : T) : property T := Some (Some v).

(** The empty object literal, the default of the [input] parameter. *)
Definition emptyOptions : UseFileDialogOptions :=
  mkOptions absent absent absent absent absent absent absent absent.

Definition defaultOptions : UseFileDialogOptions :=
  mkOptions (given true) (given "*"%string)
            absent absent absent absent absent absent.

(** Object spread [{ ...a, ...b }]: own properties of [b] win, also
    those holding [undefined]. *)
Definition spread_property {T : Type} (a b : property T) : property T :=
  match b with
  | Some v => Some v
  | None => a
  end.

Definition spread (a b : UseFileDialogOptions) : UseFileDialogOptions :=
  mkOptions
    (spread_property (multiple a) (multiple b))
    (spread_property (accept a) (accept b))
    (spread_property (capture a) (capture b))
    (spread_property (directory a) (directory b))
    (spread_property (resetOnOpen a) (resetOnOpen b))
    (spread_property (initialFiles a) (initialFiles b))
    (spread_property (onChange a) (onChange b))
    (spread_property (onCancel a) (onCancel b)).

(** JavaScript truthiness of an optional boolean and an optional string. *)
Definition truthy_bool (v : option bool) : bool :=
  match v with
  | Some true => true
  | _ => false
  end.

Definition truthy_string (v : option string) : bool :=
  match v with
  | Some EmptyString => false
  | Some _ => true
  | None => false
  end.

(** ** The document

    Listeners are registered with an [AbortSignal]; the only listener
    the hook ever registers is the arrow function of lines 92-97, a
    closure over [inputRef], [setFiles] and the [options] of the render
    that ran the effect. *)
Record EventListener := mkListener {
  l_type : string;
  l_options : UseFileDialogOptions;   (* captured [options] *)
  l_signal : nat;                     (* identity of the AbortSignal *)
}.

Record HTMLInputElement := mkInput {
  in_type : string;
  in_accept : string;
  in_multiple : bool;
  in_capture : string;
  in_webkitdirectory : bool;
  in_display : string;                (* style.display *)
  in_files : option FileList;         (* [FileList | null] *)
  in_listeners : list EventListener;
}.

(** [document.createElement('input')]: a text input, whose [files] is
    [null]. *)
Definition createElement_input : HTMLInputElement :=
  mkInput "text" EmptyString false EmptyString false EmptyString None [].

Definition set_in_files (v : option FileList) (e : HTMLInputElement) :=
  mkInput (in_type e) (in_accept e) (in_multiple e) (in_capture e)
          (in_webkitdirectory e) (in_display e) v (in_listeners e).

Definition set_in_listeners (v : list EventListener) (e : HTMLInputElement) :=
  mkInput (in_type e) (in_accept e) (in_multiple e) (in_capture e)
          (in_webkitdirectory e) (in_display e) (in_files e) v.

(** [input.type = 'file']: the element becomes a file input with an
    empty list of selected files, exposed as a [FileList] of its own. *)
Definition set_type_file (fresh : nat) (e : HTMLInputElement) :=
  mkInput "file" (in_accept e) (in_multiple e) (in_capture e)
          (in_webkitdirectory e) (in_display e)
          (Some (mkFileList fresh [])) (in_listeners e).

Definition set_accept (v : string) (e : HTMLInputElement) :=
  mkInput (in_type e) v (in_multiple e) (in_capture e)
          (in_webkitdirectory e) (in_display e) (in_files e) (in_listeners e).

Definition set_multiple (v : bool) (e : HTMLInputElement) :=
  mkInput (in_type e) (in_accept e) v (in_capture e)
          (in_webkitdirectory e) (in_display e) (in_files e) (in_listeners e).

Definition set_capture (v : string) (e : HTMLInputElement) :=
  mkInput (in_type e) (in_accept e) (in_multiple e) v
          (in_webkitdirectory e) (in_display e) (in_files e) (in_listeners e).

Definition set_webkitdirectory (v : bool) (e : HTMLInputElement) :=
  mkInput (in_type e) (in_accept e) (in_multiple e) (in_capture e)
          v (in_display e) (in_files e) (in_listeners e).

Definition set_display (v : string) (e : HTMLInputElement) :=
  mkInput (in_type e) (in_accept e) (in_multiple e) (in_capture e)
          (in_webkitdirectory e) v (in_files e) (in_listeners e).

(** What the caller and the user can observe the hook doing. *)
Inductive Event :=
  | EvOnChange (cb : nat) (arg : option FileList)  (* options.onChange(arg) *)
  | EvClick (input : nat).                         (* input.click() *)

Global Instance Event_eq_dec : EqDecision Event.
Proof. solve_decision. Defined.

Inductive JsError :=
  | ReferenceError (name : string)
  | TypeError.

(** ** State of one hook instance and of the page around it *)
Record State := mkState {
  st_document : bool;                       (* typeof document !== 'undefined' *)
  st_next : nat;                            (* next fresh object identity *)
  st_nodes : gmap nat HTMLInputElement;     (* input elements created so far *)
  st_body : list nat;                       (* children of document.body *)
  st_aborted : gset nat;                    (* signals that have been aborted *)
  st_options : UseFileDialogOptions;        (* [options] of the latest render *)
  st_files : option FileList;               (* useState: the selection *)
  st_inputRef : option nat;                 (* inputRef.current *)
  st_abortController : nat;                 (* abortController.current *)
  st_log : list Event;                      (* observed events, oldest first *)
}.

Definition with_next (v : nat) (s : State) : State :=
  mkState (st_document s) v (st_nodes s) (st_body s) (st_aborted s)
          (st_options s) (st_files s) (st_inputRef s) (st_abortController s)
          (st_log s).

Definition with_nodes (v : gmap nat HTMLInputElement) (s : State) : State :=
  mkState (st_document s) (st_next s) v (st_body s) (st_aborted s)
          (st_options s) (st_files s) (st_inputRef s) (st_abortController s)
          (st_log s).

Definition with_body (v : list nat) (s : State) : State :=
  mkState (st_document s) (st_next s) (st_nodes s) v (st_aborted s)
          (st_options s) (st_files s) (st_inputRef s) (st_abortController s)
          (st_log s).

Definition with_aborted (v : gset nat) (s : State) : State :=
  mkState (st_document s) (st_next s) (st_nodes s) (st_body s) v
          (st_options s) (st_files s) (st_inputRef s) (st_abortController s)
          (st_log s).

Definition with_options (v : UseFileDialogOptions) (s : State) : State :=
  mkState (st_document s) (st_next s) (st_nodes s) (st_body s) (st_aborted s)
          v (st_files s) (st_inputRef s) (st_abortController s) (st_log s).

Definition with_inputRef (v : option nat) (s : State) : State :=
  mkState (st_document s) (st_next s) (st_nodes s) (st_body s) (st_aborted s)
          (st_options s) (st_files s) v (st_abortController s) (st_log s).

(** [setFiles(v)] *)
Definition setFiles (v : option FileList) (s : State) : State :=
  mkState (st_document s) (st_next s) (st_nodes s) (st_body s) (st_aborted s)
          (st_options s) v (st_inputRef s) (st_abortController s) (st_log s).

Definition emit (ev : Event) (s : State) : State :=
  mkState (st_document s) (st_next s) (st_nodes s) (st_body s) (st_aborted s)
          (st_options s) (st_files s) (st_inputRef s) (st_abortController s)
          (st_log s ++ [ev]).

(** [options.onChange?.(arg)]: the callback is the caller's code; its
    call is recorded and it is taken not to call back into the hook. *)
Definition call_onChange (options : UseFileDialogOptions)
    (arg : option FileList) (s : State) : State :=
  match read (onChange options) with
  | Some cb => emit (EvOnChange cb arg) s
  | None => s
  end.

(** How a function body ends: normally, or by throwing. *)
Inductive Completion :=
  | Normal (s : State)
  | Throw (e : JsError) (s : State).

Definition completion_state (c : Completion) : State :=
  match c with
  | Normal s => s
  | Throw _ s => s
  end.

(** ** DOM operations used by the hook *)

Definition listeners_of (s : State) (i : nat) : list EventListener :=
  match st_nodes s !! i with
  | Some e => in_listeners e
  | None => []
  end.

(** [document.body.appendChild(node)]: the node becomes the last child. *)
Definition appendChild (i : nat) (s : State) : State :=
  with_body (filter (λ j, j ≠ i) (st_body s) ++ [i]) s.

(** [node.remove()] *)
Definition remove (i : nat) (s : State) : State :=
  with_body (filter (λ j, j ≠ i) (st_body s)) s.

(** [node.addEventListener(type, callback, { signal })]: nothing is added
    when the signal is already aborted. *)
Definition addEventListener (i : nat) (l : EventListener) (s : State) : State :=
  if decide (l_signal l ∈ st_aborted s) then s
  else match st_nodes s !! i with
       | Some e =>
           with_nodes
             (<[i := set_in_listeners (in_listeners e ++ [l]) e]> (st_nodes s)) s
       | None => s
       end.

Definition drop_signal (sig : nat) (e : HTMLInputElement) : HTMLInputElement :=
  set_in_listeners (filter (λ l, l_signal l ≠ sig) (in_listeners e)) e.

(** [controller.abort()]: the signal becomes aborted and every listener
    registered with it is removed; aborting twice does nothing more. *)
Definition abort (sig : nat) (s : State) : State :=
  if decide (sig ∈ st_aborted s) then s
  else with_aborted ({[sig]} ∪ st_aborted s)
         (with_nodes (drop_signal sig <$> st_nodes s) s).

(** [input.value = '']: on a file input the setter empties the list of
    selected files, which the element then exposes as a new, empty
    [FileList]. *)
Definition set_value_empty (i : nat) (s : State) : State :=
  match st_nodes s !! i with
  | Some e =>
      with_next (S (st_next s))
        (with_nodes
           (<[i := set_in_files (Some (mkFileList (st_next s) [])) e]>
              (st_nodes s)) s)
  | None => s
  end.

(** [input.click()]: the native dialog opens; what the user does in it
    arrives later, as [native_change]. *)
Definition click (i : nat) (s : State) : State := emit (EvClick i) s.

(** ** createInput (lines 52-78)

    [createInput_element] is the element the function builds (lines
    57-76); [createInput] places it in the store under a fresh identity.
    The element is not attached to the document here. *)
Definition createInput_element (options : UseFileDialogOptions) (fresh : nat)
  : HTMLInputElement :=
  let input := createElement_input in
  let input := set_type_file fresh input in
  let input :=
    match read (accept options) with
    | Some a => if truthy_string (Some a) then set_accept a input else input
    | None => input
    end in
  let input :=
    match read (multiple options) with
    | Some m => if truthy_bool (Some m) then set_multiple m input else input
    | None => input
    end in
  let input :=
    match read (capture options) with
    | Some c => if truthy_string (Some c) then set_capture c input else input
    | None => input
    end in
  let input :=
    match read (directory options) with
    | Some d => if truthy_bool (Some d) then set_webkitdirectory d input else input
    | None => input
    end in
  set_display "none" input.

Definition createInput (options : UseFileDialogOptions) (s : State)
  : option nat * State :=
  if negb (st_document s) then (None, s)
  else
    let id := st_next s in
    let input := createInput_element options (S id) in
    (Some id, with_next (S (S id)) (with_nodes (<[id := input]> (st_nodes s)) s)).

(** ** useFileDialog (lines 80-126) *)

(** The change listener (lines 92-97), with the [options] it closed over;
    [inputRef_files] is [inputRef.current?.files]. *)
Definition inputRef_files (s : State) : option FileList :=
  match st_inputRef s with
  | Some i =>
      match st_nodes s !! i with
      | Some e => in_files e
      | None => None
      end
  | None => None
  end.

Definition change_listener (options : UseFileDialogOptions) (s : State) : State :=
  match inputRef_files s with
  | Some fl => call_onChange options (Some fl) (setFiles (Some fl) s)
  | None => s
  end.

(** The effect callback (lines 87-101). *)
Definition effect (s : State) : Completion :=
  let options := st_options s in
  let '(input, s) := createInput options s in
  let s := with_inputRef input s in
  if negb (st_document s) then Throw (ReferenceError "document") s
  else
    match st_inputRef s with
    | Some i =>
        let s := appendChild i s in
        let s :=
          addEventListener i
            (mkListener "change" options (st_abortController s)) s in
        Normal s
    | None => Throw TypeError s
    end.

(** The effect's cleanup (lines 103-106). [inputRef.current] keeps
    pointing at the removed element. *)
Definition cleanup (s : State) : State :=
  let s := abort (st_abortController s) s in
  match st_inputRef s with
  | Some i => remove i s
  | None => s
  end.

(** [reset] (lines 109-115) *)
Definition reset (s : State) : State :=
  let s := setFiles None s in
  match st_inputRef s with
  | Some i =>
      let s := set_value_empty i s in
      call_onChange (st_options s) None s
  | None => s
  end.

(** [open] (lines 117-123) *)
Definition open (s : State) : State :=
  let s := if truthy_bool (read (resetOnOpen (st_options s))) then reset s else s in
  match st_inputRef s with
  | Some i => click i s
  | None => s
  end.

(** The first render (lines 81-84): merged options, initial selection,
    an empty ref and the one [AbortController] the ref keeps. *)
Definition useFileDialog (document : bool) (input : UseFileDialogOptions) : State :=
  let options := spread defaultOptions input in
  let '(files, next) := getInitialFilesList (read (initialFiles options)) 0 in
  mkState document (S next) ∅ [] ∅ options files None next [].

(** A later render: [options] is a new object; the arguments of
    [useState] and [useRef] are evaluated again and their values dropped. *)
Definition rerender (input : UseFileDialogOptions) (s : State) : State :=
  let options := spread defaultOptions input in
  let '(_, next) := getInitialFilesList (read (initialFiles options)) (st_next s) in
  with_next (S next) (with_options options s).

(** ** The platform and the host *)

(** Dispatch of a [change] event at element [i]. *)
Definition dispatch_change (i : nat) (s : State) : State :=
  fold_left (λ s l, change_listener (l_options l) s)
            (filter (λ l, l_type l = "change"%string) (listeners_of s i)) s.

(** The user completes the native dialog of element [i]: the element's
    [files] becomes what the platform reports and [change] fires. *)
Definition native_change (i : nat) (reported : option FileList) (s : State) : State :=
  match st_nodes s !! i with
  | Some e => dispatch_change i (with_nodes (<[i := set_in_files reported e]> (st_nodes s)) s)
  | None => s
  end.

(** Modelled from the spec: the host's effect scheduling.  The hook hands
    [effect] to [useIsomorphicEffect], which is not among the sources; the
    spec's LifecycleBinder runs the setup on initial mount. *)
Definition mount (s : State) : Completion := effect s.

(** Modelled from the spec: the teardown the host runs before the next
    setup or on final disposal is the cleanup the effect returned. *)
Definition unmount (s : State) : State := cleanup s.

(** Modelled from the spec: on a configuration change (every render makes
    a new [options] object) the host runs the previous teardown strictly
    before the new setup. *)
Definition config_change (input : UseFileDialogOptions) (s : State) : Completion :=
  mount (unmount (rerender input s)).

Inductive Phase := Unmounted | Mounted.

(** States a hook instance can be in, with the phase of its effect. *)
Inductive reachable : Phase → State → Prop :=
  | reach_render document input :
      reachable Unmounted (useFileDialog document input)
  | reach_mount s s' :
      reachable Unmounted s → mount s = Normal s' → reachable Mounted s'
  | reach_mount_throw s e s' :
      reachable Unmounted s → mount s = Throw e s' → reachable Unmounted s'
  | reach_unmount s :
      reachable Mounted s → reachable Unmounted (unmount s)
  | reach_rerender p input s :
      reachable p s → reachable p (rerender input s)
  | reach_open p s :
      reachable p s → reachable p (open s)
  | reach_reset p s :
      reachable p s → reachable p (reset s)
  | reach_native_change p i reported s :
      reachable p s → reachable p (native_change i reported s).

(** What holds of the listeners in every reachable state. *)
Record listeners_inv (p : Phase) (s : State) : Prop := {
  inv_live : ∀ i, listeners_of s i ≠ [] →
      p = Mounted ∧ st_inputRef s = Some i
      ∧ st_abortController s ∉ st_aborted s;
  inv_signal : ∀ i l, l ∈ listeners_of s i →
      l_signal l = st_abortController s ∧ l_type l = "change"%string;
  inv_single : ∀ i, length (listeners_of s i) ≤ 1;
}.

(** The events a step added to the log. *)
Definition emitted (s s' : State) : list Event :=
  drop (length (st_log s)) (st_log s').

(** ** Scenarios

    Concrete callers, used to run the statements below: a caller that
    passes only an [onChange] callback, one that also passes two initial
    files, and one that also asks for [resetOnOpen]. *)
Definition picked : FileList := mkFileList 100 [42].

Definition only_onChange : UseFileDialogOptions :=
  mkOptions absent absent absent absent absent absent (given 7) absent.

Definition with_initialFiles : UseFileDialogOptions :=
  mkOptions absent absent absent absent absent
            (given (IsArray [5; 6])) (given 7) absent.

Definition with_resetOnOpen : UseFileDialogOptions :=
  mkOptions absent absent absent absent (given true)
            (given (IsArray [5; 6])) (given 7) absent.

(** The state after the first render and the first run of the effect, in
    a page with a document. *)
Definition mounted (input : UseFileDialogOptions) : State :=
  completion_state (mount (useFileDialog true input)).

(** The state after one configuration change (the caller renders again
    with an object of the same contents). *)
Definition remounted (input : UseFileDialogOptions) : State :=
  completion_state (config_change input (mounted input)).

(** ** Frame lemmas: what each operation leaves alone *)

Section Frames.
Implicit Types (s : State) (i j : nat).

Lemma call_onChange_frame o arg s :
  let s' := call_onChange o arg s in
  st_nodes s' = st_nodes s ∧ st_inputRef s' = st_inputRef s
  ∧ st_aborted s' = st_aborted s
  ∧ st_abortController s' = st_abortController s
  ∧ st_files s' = st_files s ∧ st_options s' = st_options s.
Proof. unfold call_onChange. by destruct (read (onChange o)). Qed.

Lemma change_listener_frame o s :
  let s' := change_listener o s in
  st_nodes s' = st_nodes s ∧ st_inputRef s' = st_inputRef s
  ∧ st_aborted s' = st_aborted s
  ∧ st_abortController s' = st_abortController s.
Proof.
  unfold change_listener. destruct (inputRef_files s); [|done].
  unfold call_onChange. by destruct (read (onChange o)).
Qed.

Lemma fold_change_listener_frame (ls : list EventListener) s :
  let s' := fold_left (λ s l, change_listener (l_options l) s) ls s in
  st_nodes s' = st_nodes s ∧ st_inputRef s' = st_inputRef s
  ∧ st_aborted s' = st_aborted s
  ∧ st_abortController s' = st_abortController s.
Proof.
  revert s. induction ls as [|l ls IH]; intros s; simpl; [done|].
  destruct (IH (change_listener (l_options l) s)) as (-> & -> & -> & ->).
  apply change_listener_frame.
Qed.

Lemma listeners_of_nodes s s' :
  st_nodes s' = st_nodes s → ∀ i, listeners_of s' i = listeners_of s i.
Proof. intros E i. unfold listeners_of. by rewrite E. Qed.

Lemma listeners_of_set_files s i e v j :
  st_nodes s !! i = Some e →
  listeners_of (with_nodes (<[i := set_in_files v e]> (st_nodes s)) s) j
  = listeners_of s j.
Proof.
  intros E. unfold listeners_of. simpl.
  destruct (decide (i = j)) as [->|Hne].
  - by rewrite lookup_insert_eq, E.
  - by rewrite lookup_insert_ne.
Qed.

Lemma native_change_frame i r s :
  let s' := native_change i r s in
  (∀ j, listeners_of s' j = listeners_of s j)
  ∧ st_inputRef s' = st_inputRef s ∧ st_aborted s' = st_aborted s
  ∧ st_abortController s' = st_abortController s.
Proof.
  unfold native_change. destruct (st_nodes s !! i) as [e|] eqn:E; [|done].
  unfold dispatch_change.
  match goal with |- context [fold_left ?f ?ls ?s0] =>
    destruct (fold_change_listener_frame ls s0) as (En & -> & -> & ->) end.
  split; [|done]. intros j.
  rewrite (listeners_of_nodes _ _ En). by apply listeners_of_set_files.
Qed.

Lemma set_value_empty_frame i s :
  let s' := set_value_empty i s in
  (∀ j, listeners_of s' j = listeners_of s j)
  ∧ st_inputRef s' = st_inputRef s ∧ st_aborted s' = st_aborted s
  ∧ st_abortController s' = st_abortController s
  ∧ st_files s' = st_files s ∧ st_log s' = st_log s
  ∧ st_options s' = st_options s.
Proof.
  unfold set_value_empty. destruct (st_nodes s !! i) as [e|] eqn:E; [|done].
  split; [|done]. intros j.
  by rewrite <- (listeners_of_set_files s i e
                   (Some (mkFileList (st_next s) [])) j E).
Qed.

Lemma reset_frame s :
  let s' := reset s in
  (∀ j, listeners_of s' j = listeners_of s j)
  ∧ st_inputRef s' = st_inputRef s ∧ st_aborted s' = st_aborted s
  ∧ st_abortController s' = st_abortController s
  ∧ st_options s' = st_options s.
Proof.
  unfold reset. simpl. destruct (st_inputRef s) as [i|] eqn:Ei; [|done].
  destruct (set_value_empty_frame i (setFiles None s))
    as (Hl & Hr & Ha & Hc & _ & _ & Ho).
  destruct (call_onChange_frame
              (st_options (set_value_empty i (setFiles None s))) None
              (set_value_empty i (setFiles None s)))
    as (En & -> & -> & -> & _ & ->).
  repeat split; try done.
  - intros j. rewrite (listeners_of_nodes _ _ En). apply Hl.
  - by rewrite Hr.
Qed.

Lemma open_frame s :
  let s' := open s in
  (∀ j, listeners_of s' j = listeners_of s j)
  ∧ st_inputRef s' = st_inputRef s ∧ st_aborted s' = st_aborted s
  ∧ st_abortController s' = st_abortController s.
Proof.
  unfold open.
  set (s1 := if truthy_bool _ then reset s else s).
  assert ((∀ j, listeners_of s1 j = listeners_of s j)
          ∧ st_inputRef s1 = st_inputRef s ∧ st_aborted s1 = st_aborted s
          ∧ st_abortController s1 = st_abortController s) as (Hl & Hr & Ha & Hc).
  { subst s1. destruct (truthy_bool _); [|done].
    destruct (reset_frame s) as (? & ? & ? & ? & _). done. }
  destruct (st_inputRef s1) as [i|] eqn:Ei; [|by rewrite <- Hr].
  unfold click, emit; simpl. rewrite Ei. by repeat split.
Qed.

Lemma rerender_frame input s :
  let s' := rerender input s in
  st_nodes s' = st_nodes s ∧ st_inputRef s' = st_inputRef s
  ∧ st_aborted s' = st_aborted s
  ∧ st_abortController s' = st_abortController s
  ∧ st_files s' = st_files s ∧ st_log s' = st_log s.
Proof.
  unfold rerender.
  by destruct (getInitialFilesList _ _).
Qed.
End Frames.

(** ** Listeners across setup and teardown *)

Section Listeners.
Implicit Types (s : State) (i j : nat).

Lemma filter_none {A : Type} (P : A → Prop) `{!∀ x, Decision (P x)}
    (l : list A) :
  (∀ x, x ∈ l → ¬ P x) → filter P l = [].
Proof.
  induction l as [|x l IH]; intros Hall; [done|].
  rewrite filter_cons, decide_False by (apply Hall; left).
  apply IH. intros y Hy. apply Hall. by right.
Qed.

Lemma listeners_of_abort sig s i :
  sig ∉ st_aborted s →
  listeners_of (abort sig s) i
  = filter (λ l, l_signal l ≠ sig) (listeners_of s i).
Proof.
  intros Hn. unfold abort. rewrite decide_False by done.
  unfold listeners_of; simpl. rewrite lookup_fmap.
  by destruct (st_nodes s !! i).
Qed.

Lemma abort_frame sig s :
  st_inputRef (abort sig s) = st_inputRef s
  ∧ st_abortController (abort sig s) = st_abortController s
  ∧ st_files (abort sig s) = st_files s ∧ st_log (abort sig s) = st_log s
  ∧ sig ∈ st_aborted (abort sig s).
Proof.
  unfold abort. destruct (decide (sig ∈ st_aborted s)); simpl; [done|].
  repeat split. set_solver.
Qed.

Lemma cleanup_frame s :
  st_inputRef (cleanup s) = st_inputRef s
  ∧ st_abortController (cleanup s) = st_abortController s
  ∧ st_files (cleanup s) = st_files s ∧ st_log (cleanup s) = st_log s
  ∧ st_abortController s ∈ st_aborted (cleanup s)
  ∧ ∀ i, listeners_of (cleanup s) i
         = listeners_of (abort (st_abortController s) s) i.
Proof.
  unfold cleanup.
  destruct (abort_frame (st_abortController s) s) as (Hr & Hc & Hf & Hl & Ha).
  destruct (st_inputRef (abort (st_abortController s) s)) as [i|] eqn:E;
    simpl; rewrite ?E; by repeat split.
Qed.

(** After teardown no element carries a listener any more. *)
Lemma cleanup_no_listeners p s :
  listeners_inv p s → ∀ i, listeners_of (cleanup s) i = [].
Proof.
  intros [Hlive Hsig _] i.
  destruct (cleanup_frame s) as (_ & _ & _ & _ & _ & ->).
  destruct (decide (st_abortController s ∈ st_aborted s)) as [Hin|Hin].
  - unfold abort. rewrite decide_True by done.
    destruct (listeners_of s i) as [|l ls] eqn:E; [done|].
    destruct (Hlive i) as (_ & _ & Hn); [by rewrite E|]. done.
  - rewrite listeners_of_abort by done.
    apply filter_none. intros l Hl Hne. apply Hne.
    by destruct (Hsig i l Hl).
Qed.

Lemma createInput_element_listeners o fresh :
  in_listeners (createInput_element o fresh) = [].
Proof.
  unfold createInput_element.
  destruct (read (accept o)) as [[|? ?]|], (read (multiple o)) as [[]|],
    (read (capture o)) as [[|? ?]|], (read (directory o)) as [[]|]; done.
Qed.

Local Opaque createInput_element.

Lemma effect_throws s e s' :
  effect s = Throw e s' →
  st_document s = false ∧ e = ReferenceError "document"
  ∧ s' = with_inputRef None s.
Proof.
  unfold effect, createInput.
  destruct (st_document s) eqn:E; simpl; rewrite E; simpl; [done|].
  intros [= <- <-]. done.
Qed.

Lemma effect_normal s s' :
  effect s = Normal s' →
  let i := st_next s in
  let l := mkListener "change" (st_options s) (st_abortController s) in
  st_document s = true ∧ st_inputRef s' = Some i
  ∧ st_aborted s' = st_aborted s
  ∧ st_abortController s' = st_abortController s
  ∧ st_files s' = st_files s ∧ st_log s' = st_log s
  ∧ (∀ j, j ≠ i → listeners_of s' j = listeners_of s j)
  ∧ listeners_of s' i
    = if decide (st_abortController s ∈ st_aborted s) then [] else [l].
Proof.
  unfold effect, createInput.
  destruct (st_document s) eqn:E; simpl; rewrite E; simpl; [|done].
  intros [= <-]. unfold addEventListener; simpl.
  pose proof (createInput_element_listeners (st_options s) (S (st_next s)))
    as Hnew.
  destruct (decide (st_abortController s ∈ st_aborted s)); simpl.
  - repeat split; try done.
    + intros j Hj. unfold listeners_of; simpl. by rewrite lookup_insert_ne.
    + unfold listeners_of; simpl. by rewrite lookup_insert_eq.
  - rewrite lookup_insert_eq; simpl. repeat split; try done.
    + intros j Hj. unfold listeners_of; simpl.
      by rewrite !lookup_insert_ne.
    + unfold listeners_of; simpl. by rewrite lookup_insert_eq, Hnew.
Qed.
End Listeners.

(** ** The invariant holds in every reachable state *)

Lemma listeners_inv_frame p s s' :
  (∀ j, listeners_of s' j = listeners_of s j) →
  st_inputRef s' = st_inputRef s → st_aborted s' = st_aborted s →
  st_abortController s' = st_abortController s →
  listeners_inv p s → listeners_inv p s'.
Proof.
  intros Hl Hr Ha Hc [H1 H2 H3]. split.
  - intros i. rewrite Hl, Hr, Ha, Hc. apply H1.
  - intros i l. rewrite Hl, Hc. apply H2.
  - intros i. rewrite Hl. apply H3.
Qed.

Lemma listeners_inv_none p s :
  (∀ j, listeners_of s j = []) → listeners_inv p s.
Proof.
  intros Hn. split; intros i; rewrite Hn; try done.
  - intros l Hl. by apply elem_of_nil in Hl.
  - simpl. lia.
Qed.

Lemma unmounted_no_listeners s :
  listeners_inv Unmounted s → ∀ j, listeners_of s j = [].
Proof.
  intros [Hlive _ _] j. destruct (listeners_of s j) as [|l ls] eqn:E; [done|].
  destruct (Hlive j) as (Hp & _); [by rewrite E|]. discriminate Hp.
Qed.

Theorem reachable_listeners_inv p s : reachable p s → listeners_inv p s.
Proof.
  induction 1 as [doc input | s s' _ IH Hm | s e s' _ IH Hm | s _ IH
                 | p input s _ IH | p s _ IH | p s _ IH | p i r s _ IH].
  - apply listeners_inv_none. intros j. unfold useFileDialog.
    destruct (getInitialFilesList _ _). done.
  - pose proof (unmounted_no_listeners s IH) as Hn.
    destruct (effect_normal s s' Hm) as (_ & Hr & Ha & Hc & _ & _ & Ho & Hi).
    split.
    + intros j Hj. destruct (decide (j = st_next s)) as [->|Hne].
      * rewrite Hi in Hj. rewrite Ha, Hc.
        by destruct (decide (st_abortController s ∈ st_aborted s)).
      * by rewrite Ho, Hn in Hj.
    + intros j l. destruct (decide (j = st_next s)) as [->|Hne].
      * rewrite Hi, Hc.
        destruct (decide (st_abortController s ∈ st_aborted s)).
        -- intros Hl. by apply elem_of_nil in Hl.
        -- intros Hl. apply list_elem_of_singleton in Hl. by subst l.
      * rewrite Ho, Hn by done. intros Hl. by apply elem_of_nil in Hl.
    + intros j. destruct (decide (j = st_next s)) as [->|Hne].
      * rewrite Hi.
        destruct (decide (st_abortController s ∈ st_aborted s)); simpl; lia.
      * rewrite Ho, Hn by done. simpl. lia.
  - destruct (effect_throws s e s' Hm) as (_ & _ & ->).
    apply listeners_inv_none. intros j.
    apply (unmounted_no_listeners s IH j).
  - apply listeners_inv_none. by apply (cleanup_no_listeners Mounted).
  - destruct (rerender_frame input s) as (En & Hr & Ha & Hc & _).
    apply (listeners_inv_frame p s); try done.
    by apply listeners_of_nodes.
  - destruct (open_frame s) as (Hl & Hr & Ha & Hc).
    by apply (listeners_inv_frame p s).
  - destruct (reset_frame s) as (Hl & Hr & Ha & Hc & _).
    by apply (listeners_inv_frame p s).
  - destruct (native_change_frame i r s) as (Hl & Hr & Ha & Hc).
    by apply (listeners_inv_frame p s).
Qed.

(** ** The log *)

Lemma emitted_app (s s' : State) (evs : list Event) :
  st_log s' = st_log s ++ evs → emitted s s' = evs.
Proof. intros E. unfold emitted. rewrite E. apply drop_app_length. Qed.

Lemma call_onChange_log o arg s :
  st_log (call_onChange o arg s)
  = st_log s ++ match read (onChange o) with
                | Some cb => [EvOnChange cb arg]
                | None => []
                end.
Proof.
  unfold call_onChange. destruct (read (onChange o)); simpl; [done|].
  by rewrite app_nil_r.
Qed.

Lemma reset_log s :
  st_log (reset s)
  = st_log s ++ match st_inputRef s, read (onChange (st_options s)) with
                | Some _, Some cb => [EvOnChange cb None]
                | _, _ => []
                end.
Proof.
  unfold reset; simpl. destruct (st_inputRef s) as [i|]; simpl.
  - destruct (set_value_empty_frame i (setFiles None s))
      as (_ & _ & _ & _ & _ & Hl & Ho).
    rewrite call_onChange_log, Hl, Ho. done.
  - by rewrite app_nil_r.
Qed.

Lemma reset_files s : st_files (reset s) = None.
Proof.
  unfold reset; simpl. destruct (st_inputRef s) as [i|]; [|done].
  destruct (set_value_empty_frame i (setFiles None s))
    as (_ & _ & _ & _ & Hf & _ & _).
  destruct (call_onChange_frame
              (st_options (set_value_empty i (setFiles None s))) None
              (set_value_empty i (setFiles None s)))
    as (_ & _ & _ & _ & -> & _).
  by rewrite Hf.
Qed.

(** [reset] empties the committed selection of the element the ref holds. *)
Lemma reset_clears_input s i e :
  st_inputRef s = Some i → st_nodes s !! i = Some e →
  st_nodes (reset s) !! i
  = Some (set_in_files (Some (mkFileList (st_next s) [])) e).
Proof.
  intros Hi He. unfold reset; simpl. rewrite Hi.
  match goal with |- st_nodes (call_onChange ?o ?a ?t) !! _ = _ =>
    destruct (call_onChange_frame o a t) as (-> & _) end.
  unfold set_value_empty; simpl. rewrite He; simpl.
  by rewrite lookup_insert_eq.
Qed.

(** * The selection normaliser *)

Lemma fold_items_add (arr : list File) (st : DataTransfer * nat) :
  fold_left items_add arr st
  = (mkDataTransfer (dt_id st.1) (dt_items_id st.1) (dt_files_id st.1)
                    (dt_items st.1 ++ arr),
     length arr + st.2).
Proof.
  revert st. induction arr as [|f arr IH]; intros [dt n]; simpl.
  - rewrite app_nil_r. by destruct dt.
  - rewrite IH. simpl. rewrite <- app_assoc. simpl. f_equal. lia.
Qed.

Lemma getInitialFilesList_array (arr : list File) (next : nat) :
  getInitialFilesList (Some (IsArray arr)) next
  = (Some (mkFileList (S (S next)) arr), length arr + S (S (S next))).
Proof.
  unfold getInitialFilesList, new_DataTransfer. by rewrite fold_items_add.
Qed.

Lemma getInitialFilesList_next (files : option InitialFiles) (next : nat) :
  next ≤ (getInitialFilesList files next).2.
Proof.
  destruct files as [[fl|arr]|]; [done| |done].
  rewrite getInitialFilesList_array. simpl. lia.
Qed.

(** C7: for an array of file handles the normaliser returns a collection
    of the same length, with the same element at every index, and with
    every handle occurring as often as in the array (nothing is merged). *)
Theorem C7_array_normalised_in_order (arr : list File) (next : nat) :
  ∃ fl : FileList,
    (getInitialFilesList (Some (IsArray arr)) next).1 = Some fl
    ∧ length (fl_items fl) = length arr
    ∧ (∀ k : nat, fl_items fl !! k = arr !! k)
    ∧ (∀ f : File, count_occ Nat.eq_dec (fl_items fl) f
                   = count_occ Nat.eq_dec arr f).
Proof.
  rewrite getInitialFilesList_array. by exists (mkFileList (S (S next)) arr).
Qed.

(** C8: a [FileList] given as [initialFiles] is returned as it is: the
    result is the very same object (same identity, same items) and no
    object is allocated on the way. *)
Theorem C8_filelist_returned_unchanged (fl : FileList) (next : nat) :
  getInitialFilesList (Some (IsFileList fl)) next = (Some fl, next).
Proof. reflexivity. Qed.

(** C10: the empty array is normalised to a collection that is not null
    and has no items; the result is null for an absent input only. *)
Theorem C10_empty_array_is_not_null (next : nat) :
  (∃ fl : FileList,
      (getInitialFilesList (Some (IsArray [])) next).1 = Some fl
      ∧ fl_items fl = [])
  ∧ (∀ files : option InitialFiles,
      (getInitialFilesList files next).1 = None ↔ files = None).
Proof.
  split.
  - rewrite getInitialFilesList_array. by exists (mkFileList (S (S next)) []).
  - intros [[fl|arr]|]; [done| |done].
    rewrite getInitialFilesList_array. done.
Qed.

(** The initial selection of the hook is the normalised [initialFiles]. *)
Lemma useFileDialog_initial_files (document : bool) (input : UseFileDialogOptions) :
  st_files (useFileDialog document input)
  = (getInitialFilesList (read (initialFiles (spread defaultOptions input))) 0).1.
Proof. unfold useFileDialog. by destruct (getInitialFilesList _ _). Qed.

(** * open and reset *)

Lemma open_unfold s :
  open s
  = let s1 := if truthy_bool (read (resetOnOpen (st_options s)))
              then reset s else s in
    match st_inputRef s with
    | Some i => click i s1
    | None => s1
    end.
Proof.
  unfold open. destruct (truthy_bool _); [|done].
  destruct (reset_frame s) as (_ & -> & _). done.
Qed.

(** C3: when the caller's object has no [resetOnOpen] property the merged
    options read it as undefined, and [open] goes straight to the click:
    the selection and the elements are as before and the only event, if a
    trigger exists, is the click; [onChange] is not called. *)
Theorem C3_open_without_resetOnOpen (input : UseFileDialogOptions) (s : State) :
  resetOnOpen input = absent →
  st_options s = spread defaultOptions input →
  read (resetOnOpen (st_options s)) = None
  ∧ st_files (open s) = st_files s
  ∧ st_nodes (open s) = st_nodes s
  ∧ st_log (open s)
    = st_log s ++ match st_inputRef s with
                  | Some i => [EvClick i]
                  | None => []
                  end.
Proof.
  intros Hin Ho.
  assert (read (resetOnOpen (st_options s)) = None) as Hr.
  { rewrite Ho. simpl. by rewrite Hin. }
  split; [done|]. rewrite open_unfold, Hr. simpl.
  destruct (st_inputRef s); simpl; [done|]. by rewrite app_nil_r.
Qed.

Lemma C3_open_without_resetOnOpen_witness :
  st_inputRef (mounted with_initialFiles) = Some 6
  ∧ st_files (open (mounted with_initialFiles)) = Some (mkFileList 2 [5; 6])
  ∧ st_log (open (mounted with_initialFiles)) = [EvClick 6].
Proof.
  destruct (C3_open_without_resetOnOpen with_initialFiles
              (mounted with_initialFiles)) as (_ & Hf & _ & Hl);
    [reflexivity | reflexivity |].
  split; [reflexivity|]. split.
  - rewrite Hf. reflexivity.
  - rewrite Hl. reflexivity.
Defined.

(** C4: after [reset] the selection is null.  With a callback [cb]
    supplied as [onChange], the events of [reset] are exactly the one call
    [cb(null)] if and only if a trigger exists, in which case the
    trigger's committed selection has been emptied; without a trigger
    [reset] produces no event at all. *)
Theorem C4_reset_contract (s : State) (cb : nat) :
  read (onChange (st_options s)) = Some cb →
  st_files (reset s) = None
  ∧ (emitted s (reset s) = [EvOnChange cb None] ↔ is_Some (st_inputRef s))
  ∧ (count_occ Event_eq_dec (emitted s (reset s)) (EvOnChange cb None) = 1
     ↔ is_Some (st_inputRef s))
  ∧ (st_inputRef s = None → emitted s (reset s) = [])
  ∧ (∀ i e, st_inputRef s = Some i → st_nodes s !! i = Some e →
       ∃ fl, (st_nodes (reset s) !! i) ≫= in_files = Some fl
             ∧ fl_items fl = []).
Proof.
  intros Hcb. split; [apply reset_files|].
  pose proof (reset_log s) as Hl. rewrite Hcb in Hl.
  destruct (st_inputRef s) as [i|] eqn:Ei;
    rewrite (emitted_app _ _ _ Hl); (split; [|split; [|split]]).
  - done.
  - split; [done|]. intros _. by rewrite count_occ_cons_eq.
  - done.
  - intros j e [= <-] He.
    rewrite (reset_clears_input s i e Ei He). simpl. eauto.
  - split; [done|]. by intros [? ?].
  - split; [done|]. by intros [? ?].
  - done.
  - done.
Qed.

Lemma C4_reset_contract_witness :
  st_files (mounted with_initialFiles) = Some (mkFileList 2 [5; 6])
  ∧ st_files (reset (mounted with_initialFiles)) = None
  ∧ emitted (mounted with_initialFiles) (reset (mounted with_initialFiles))
    = [EvOnChange 7 None].
Proof.
  destruct (C4_reset_contract (mounted with_initialFiles) 7)
    as (Hf & He & _); [reflexivity|].
  split; [reflexivity|]. split; [exact Hf|].
  apply He. exists 6. reflexivity.
Defined.

(** Without an [onChange] callback [reset] produces no event. *)
Lemma reset_without_callback (s : State) :
  read (onChange (st_options s)) = None → st_log (reset s) = st_log s.
Proof.
  intros Hcb. rewrite reset_log, Hcb.
  destruct (st_inputRef s); by rewrite app_nil_r.
Qed.

(** C5: with [resetOnOpen] true and a trigger present, [open] is [reset]
    followed by the click: the selection is already null when the click
    happens, and in the log every event of [reset] (the [onChange(null)]
    call, if any) stands before the click, which comes last. *)
Theorem C5_open_resets_before_click (s : State) (i : nat) :
  truthy_bool (read (resetOnOpen (st_options s))) = true →
  st_inputRef s = Some i →
  open s = click i (reset s)
  ∧ st_files (reset s) = None
  ∧ ∃ evs : list Event,
      st_log (reset s) = st_log s ++ evs
      ∧ st_log (open s) = st_log s ++ evs ++ [EvClick i]
      ∧ (∀ ev, ev ∈ evs → ∃ cb, ev = EvOnChange cb None)
      ∧ (∀ k cb arg, emitted s (open s) !! k = Some (EvOnChange cb arg) →
           k < length evs
           ∧ emitted s (open s) !! length evs = Some (EvClick i)).
Proof.
  intros Hr Hi.
  assert (open s = click i (reset s)) as Ho.
  { rewrite open_unfold, Hr, Hi. done. }
  split; [done|]. split; [apply reset_files|].
  pose proof (reset_log s) as Hl. rewrite Hi in Hl.
  set (evs := match read (onChange (st_options s)) with
              | Some cb => [EvOnChange cb None]
              | None => []
              end) in Hl.
  assert (st_log (open s) = st_log s ++ evs ++ [EvClick i]) as Hlo.
  { rewrite Ho. unfold click, emit; simpl. by rewrite Hl, <- app_assoc. }
  exists evs. split; [done|]. split; [done|]. split.
  - subst evs. intros ev Hev.
    destruct (read (onChange (st_options s))) as [cb|].
    + apply list_elem_of_singleton in Hev. eauto.
    + by apply elem_of_nil in Hev.
  - intros k cb arg. rewrite (emitted_app _ _ _ Hlo). intros Hk.
    split.
    + destruct (decide (k < length evs)) as [|Hge]; [done|].
      rewrite lookup_app_r in Hk by lia.
      destruct (k - length evs) as [|n]; simpl in Hk; [|by destruct n].
      discriminate Hk.
    + rewrite lookup_app_r by lia. by rewrite Nat.sub_diag.
Qed.

Lemma C5_open_resets_before_click_witness :
  st_files (mounted with_resetOnOpen) = Some (mkFileList 2 [5; 6])
  ∧ open (mounted with_resetOnOpen) = click 6 (reset (mounted with_resetOnOpen))
  ∧ st_log (open (mounted with_resetOnOpen)) = [EvOnChange 7 None; EvClick 6].
Proof.
  destruct (C5_open_resets_before_click (mounted with_resetOnOpen) 6)
    as (Ho & _ & _); [reflexivity | reflexivity |].
  split; [reflexivity|]. split; [exact Ho|]. reflexivity.
Defined.

(** * The change notification *)

Lemma native_change_no_listener (i : nat) (r : option FileList) (s : State) :
  listeners_of s i = [] →
  st_files (native_change i r s) = st_files s
  ∧ st_log (native_change i r s) = st_log s.
Proof.
  intros Hn. unfold native_change.
  destruct (st_nodes s !! i) as [e|] eqn:E; [|done].
  unfold dispatch_change. rewrite (listeners_of_set_files s i e r i E), Hn.
  done.
Qed.

Lemma native_change_one_listener (i : nat) (r : option FileList) (s : State)
    (l : EventListener) :
  st_inputRef s = Some i → listeners_of s i = [l] →
  l_type l = "change"%string →
  st_files (native_change i r s)
  = match r with
    | Some fl => Some fl
    | None => st_files s
    end
  ∧ st_log (native_change i r s)
    = st_log s ++ match r, read (onChange (l_options l)) with
                  | Some fl, Some cb => [EvOnChange cb (Some fl)]
                  | _, _ => []
                  end.
Proof.
  intros Hi Hl Ht. unfold native_change.
  destruct (st_nodes s !! i) as [e|] eqn:E;
    [|by unfold listeners_of in Hl; rewrite E in Hl].
  unfold dispatch_change. rewrite (listeners_of_set_files s i e r i E), Hl.
  rewrite filter_cons, decide_True by done. simpl.
  unfold change_listener, inputRef_files; simpl.
  rewrite Hi, lookup_insert_eq; simpl.
  destruct r as [fl|]; simpl.
  - rewrite call_onChange_log; simpl.
    destruct (call_onChange_frame (l_options l) (Some fl)
                (setFiles (Some fl)
                   (with_nodes (<[i:=set_in_files (Some fl) e]> (st_nodes s)) s)))
      as (_ & _ & _ & _ & -> & _).
    done.
  - by rewrite app_nil_r.
Qed.

(** C6: for a change notification at element [i] reporting [r], in any
    reachable state: every event it produces is a call of [onChange] with
    a non-null collection, namely the reported one, which is then also the
    selection; the selection changes to nothing else; and when the trigger
    reports no collection, selection and log stay as they are.  With a
    live listener and a reported collection, the selection is replaced by
    it and the listener's [onChange], if any, is called once with it. *)
Theorem C6_change_notification (p : Phase) (s : State) (i : nat)
    (r : option FileList) :
  reachable p s →
  let s' := native_change i r s in
  (∀ ev, ev ∈ emitted s s' →
     ∃ cb fl, ev = EvOnChange cb (Some fl) ∧ r = Some fl
              ∧ st_files s' = Some fl)
  ∧ (st_files s' ≠ st_files s → st_files s' = r ∧ r ≠ None)
  ∧ (r = None → st_files s' = st_files s ∧ st_log s' = st_log s)
  ∧ (∀ l fl, listeners_of s i = [l] → r = Some fl →
       st_files s' = Some fl
       ∧ emitted s s' = match read (onChange (l_options l)) with
                        | Some cb => [EvOnChange cb (Some fl)]
                        | None => []
                        end).
Proof.
  intros Hreach s'. subst s'.
  destruct (reachable_listeners_inv p s Hreach) as [Hlive Hsig Hone].
  destruct (listeners_of s i) as [|l [|l' ls]] eqn:El.
  - destruct (native_change_no_listener i r s El) as (Hf & Hl).
    assert (emitted s (native_change i r s) = []) as He.
    { apply emitted_app. by rewrite app_nil_r. }
    rewrite He, Hf. repeat split; try done.
    intros ev Hev. by apply elem_of_nil in Hev.
  - destruct (Hlive i) as (_ & Hi & _); [by rewrite El|].
    destruct (Hsig i l) as (_ & Ht); [rewrite El; by left|].
    destruct (native_change_one_listener i r s l Hi El Ht) as (Hf & Hl).
    rewrite (emitted_app _ _ _ Hl), Hf.
    destruct r as [fl|].
    + split; [|split; [|split]].
      * intros ev Hev. destruct (read (onChange (l_options l))) as [cb|].
        -- apply list_elem_of_singleton in Hev. eauto.
        -- by apply elem_of_nil in Hev.
      * done.
      * done.
      * intros l0 fl0 [= <-] [= <-]. done.
    + split; [|split; [|split]].
      * intros ev Hev. by apply elem_of_nil in Hev.
      * done.
      * intros _. split; [done|]. by rewrite Hl, app_nil_r.
      * done.
  - specialize (Hone i). rewrite El in Hone. simpl in Hone. lia.
Qed.

Lemma mounted_reachable (input : UseFileDialogOptions) :
  reachable Mounted (mounted input).
Proof.
  apply (reach_mount (useFileDialog true input)); [constructor|].
  unfold mounted, mount, effect, createInput, useFileDialog.
  by destruct (getInitialFilesList _ _).
Qed.

Lemma C6_change_notification_witness :
  reachable Mounted (mounted only_onChange)
  ∧ st_files (native_change 1 (Some picked) (mounted only_onChange))
    = Some picked
  ∧ emitted (mounted only_onChange)
            (native_change 1 (Some picked) (mounted only_onChange))
    = [EvOnChange 7 (Some picked)].
Proof.
  split; [apply mounted_reachable|].
  destruct (C6_change_notification Mounted (mounted only_onChange) 1
              (Some picked) (mounted_reachable only_onChange))
    as (_ & _ & _ & Hlive).
  exact (Hlive (mkListener "change" (spread defaultOptions only_onChange) 0)
               picked eq_refl eq_refl).
Defined.

(** * Teardown *)

(** C2: once the teardown of a mounted hook has run, a change notification
    at any element, whatever it reports, leaves the selection as it was
    and adds nothing to the log: [onChange] is not called. *)
Theorem C2_no_update_after_unmount (s : State) (i : nat) (r : option FileList) :
  reachable Mounted s →
  st_files (native_change i r (unmount s)) = st_files s
  ∧ st_log (native_change i r (unmount s)) = st_log s
  ∧ emitted (unmount s) (native_change i r (unmount s)) = [].
Proof.
  intros Hreach. unfold unmount.
  pose proof (reachable_listeners_inv Mounted s Hreach) as Hinv.
  destruct (native_change_no_listener i r (cleanup s)
              (cleanup_no_listeners Mounted s Hinv i)) as (Hf & Hl).
  destruct (cleanup_frame s) as (_ & _ & Hf' & Hl' & _).
  split; [by rewrite Hf|]. split; [by rewrite Hl|].
  apply emitted_app. by rewrite Hl, app_nil_r.
Qed.

Lemma C2_no_update_after_unmount_witness :
  st_files (native_change 1 (Some picked) (mounted only_onChange)) = Some picked
  ∧ st_files (native_change 1 (Some picked) (unmount (mounted only_onChange)))
    = None
  ∧ st_log (native_change 1 (Some picked) (unmount (mounted only_onChange)))
    = [].
Proof.
  destruct (C2_no_update_after_unmount (mounted only_onChange) 1 (Some picked)
              (mounted_reachable only_onChange)) as (Hf & Hl & _).
  split; [reflexivity|]. split; [exact Hf | exact Hl].
Defined.

(** ** The signal is never re-armed

    [abortController] is a ref initialised once; the teardown aborts its
    signal and nothing replaces the controller, so every later
    [addEventListener] is handed a signal that is already aborted. *)

Lemma aborted_no_listeners (p : Phase) (s : State) :
  reachable p s → st_abortController s ∈ st_aborted s →
  ∀ i, listeners_of s i = [].
Proof.
  intros Hreach Hab i.
  destruct (reachable_listeners_inv p s Hreach) as [Hlive _ _].
  destruct (listeners_of s i) as [|l ls] eqn:E; [done|].
  destruct (Hlive i) as (_ & _ & Hn); [by rewrite E|]. done.
Qed.

Lemma config_change_reachable (input : UseFileDialogOptions) (s s' : State) :
  reachable Mounted s → config_change input s = Normal s' →
  reachable Mounted s' ∧ st_abortController s' ∈ st_aborted s'
  ∧ st_files s' = st_files s ∧ st_log s' = st_log s.
Proof.
  intros Hreach Hc. unfold config_change in Hc.
  assert (reachable Unmounted (unmount (rerender input s))) as Hu.
  { apply reach_unmount. by apply reach_rerender. }
  split; [by apply (reach_mount _ _ Hu)|].
  destruct (effect_normal _ _ Hc) as (_ & _ & Ha & Hcn & Hf & Hl & _).
  destruct (cleanup_frame (rerender input s)) as (_ & Hc' & Hf' & Hl' & Hin & _).
  destruct (rerender_frame input s) as (_ & _ & _ & _ & Hf'' & Hl'').
  unfold unmount in *. rewrite Ha, Hcn, Hf, Hl, Hc', Hf', Hl'.
  by repeat split.
Qed.

(** After a configuration change no change notification is heard. *)
Lemma config_change_deaf (input : UseFileDialogOptions) (s s' : State)
    (i : nat) (r : option FileList) :
  reachable Mounted s → config_change input s = Normal s' →
  st_files (native_change i r s') = st_files s
  ∧ st_log (native_change i r s') = st_log s.
Proof.
  intros Hreach Hc.
  destruct (config_change_reachable input s s' Hreach Hc)
    as (Hreach' & Hab & Hf & Hl).
  destruct (native_change_no_listener i r s'
              (aborted_no_listeners Mounted s' Hreach' Hab i)) as (-> & ->).
  done.
Qed.

(** C1, evaluated: mount with an [onChange] callback, change the
    configuration once, then let the platform report a pick on the new
    trigger.  The old trigger is detached and the new one attached, but
    the new trigger carries no listener: the selection stays null and
    [onChange] is not called, whereas the same pick before the
    configuration change reached both. *)
Theorem C1_config_change_loses_listener :
  mount (useFileDialog true only_onChange) = Normal (mounted only_onChange)
  ∧ st_inputRef (mounted only_onChange) = Some 1
  ∧ st_body (mounted only_onChange) = [1]
  ∧ st_files (native_change 1 (Some picked) (mounted only_onChange))
    = Some picked
  ∧ st_log (native_change 1 (Some picked) (mounted only_onChange))
    = [EvOnChange 7 (Some picked)]
  ∧ config_change only_onChange (mounted only_onChange)
    = Normal (remounted only_onChange)
  ∧ st_inputRef (remounted only_onChange) = Some 4
  ∧ st_body (remounted only_onChange) = [4]
  ∧ listeners_of (remounted only_onChange) 1 = []
  ∧ listeners_of (remounted only_onChange) 4 = []
  ∧ st_files (native_change 4 (Some picked) (remounted only_onChange)) = None
  ∧ st_log (native_change 4 (Some picked) (remounted only_onChange)) = [].
Proof.
  do 11 (split; [vm_compute; reflexivity|]).
  vm_compute; reflexivity.
Qed.

(** * Without a document *)

Section NoDocument.
Implicit Types (s : State).

Lemma call_onChange_document o arg s :
  st_document (call_onChange o arg s) = st_document s.
Proof. unfold call_onChange. by destruct (read (onChange o)). Qed.

Lemma reset_document s : st_document (reset s) = st_document s.
Proof.
  unfold reset; simpl. destruct (st_inputRef s) as [i|]; [|done].
  rewrite call_onChange_document. unfold set_value_empty; simpl.
  by destruct (st_nodes s !! i).
Qed.

Lemma open_document s : st_document (open s) = st_document s.
Proof.
  rewrite open_unfold. simpl.
  destruct (truthy_bool _), (st_inputRef s); simpl;
    by rewrite ?reset_document.
Qed.

Lemma rerender_document input s :
  st_document (rerender input s) = st_document s.
Proof. unfold rerender. by destruct (getInitialFilesList _ _). Qed.

Lemma cleanup_document s : st_document (cleanup s) = st_document s.
Proof.
  unfold cleanup, abort.
  destruct (decide (st_abortController s ∈ st_aborted s)); simpl;
    by destruct (st_inputRef s).
Qed.

Lemma fold_change_listener_document (ls : list EventListener) s :
  st_document (fold_left (λ s l, change_listener (l_options l) s) ls s)
  = st_document s.
Proof.
  revert s. induction ls as [|l ls IH]; intros s; simpl; [done|].
  rewrite IH. unfold change_listener.
  destruct (inputRef_files s); [|done]. by rewrite call_onChange_document.
Qed.

Lemma native_change_document i r s :
  st_document (native_change i r s) = st_document s.
Proof.
  unfold native_change. destruct (st_nodes s !! i); [|done].
  unfold dispatch_change. by rewrite fold_change_listener_document.
Qed.

(** A hook instance without a document never holds a trigger. *)
Lemma reachable_no_document p s :
  reachable p s → st_document s = false → st_inputRef s = None.
Proof.
  induction 1 as [doc input | s s' _ IH Hm | s e s' _ IH Hm | s _ IH
                 | p input s _ IH | p s _ IH | p s _ IH | p i r s _ IH];
    intros Hd.
  - unfold useFileDialog. by destruct (getInitialFilesList _ _).
  - destruct (effect_normal s s' Hm) as (Hdoc & _).
    unfold mount, effect, createInput in Hm. rewrite Hdoc in Hm.
    simpl in Hm. rewrite Hdoc in Hm. simpl in Hm.
    injection Hm as <-. unfold addEventListener in Hd.
    destruct (decide _) in Hd; simpl in Hd; [congruence|].
    rewrite lookup_insert_eq in Hd. simpl in Hd. congruence.
  - by destruct (effect_throws s e s' Hm) as (_ & _ & ->).
  - unfold unmount in *. rewrite cleanup_document in Hd.
    destruct (cleanup_frame s) as (-> & _). auto.
  - rewrite rerender_document in Hd.
    destruct (rerender_frame input s) as (_ & -> & _). auto.
  - rewrite open_document in Hd.
    destruct (open_frame s) as (_ & -> & _). auto.
  - rewrite reset_document in Hd.
    destruct (reset_frame s) as (_ & -> & _). auto.
  - rewrite native_change_document in Hd.
    destruct (native_change_frame i r s) as (_ & -> & _). auto.
Qed.
End NoDocument.

(** In a state of a hook that has no document, [createInput] returns
    null and changes nothing; the hook holds no trigger; [open] does what
    [reset] does when [resetOnOpen] is set and nothing otherwise, and in
    either case it clicks nothing, calls nothing and leaves the document
    as it is; [reset] sets the selection to null and calls nothing. *)
Theorem no_document_open_reset_silent (p : Phase) (s : State) :
  reachable p s → st_document s = false →
  (∀ options, createInput options s = (None, s))
  ∧ st_inputRef s = None
  ∧ open s = (if truthy_bool (read (resetOnOpen (st_options s)))
              then reset s else s)
  ∧ (truthy_bool (read (resetOnOpen (st_options s))) = false → open s = s)
  ∧ st_log (open s) = st_log s
  ∧ st_nodes (open s) = st_nodes s ∧ st_body (open s) = st_body s
  ∧ st_inputRef (open s) = None
  ∧ reset s = setFiles None s
  ∧ st_files (reset s) = None ∧ st_log (reset s) = st_log s.
Proof.
  intros Hreach Hd.
  pose proof (reachable_no_document p s Hreach Hd) as Hi.
  assert (reset s = setFiles None s) as Hr.
  { unfold reset; simpl. by rewrite Hi. }
  split; [intros o; unfold createInput; by rewrite Hd|].
  split; [done|]. rewrite open_unfold, Hi, Hr. simpl.
  destruct (truthy_bool _); by repeat split.
Qed.

Lemma no_document_open_reset_silent_witness :
  createInput (st_options (useFileDialog false only_onChange))
              (useFileDialog false only_onChange)
  = (None, useFileDialog false only_onChange)
  ∧ open (useFileDialog false only_onChange)
    = useFileDialog false only_onChange
  ∧ st_files (reset (useFileDialog false only_onChange)) = None
  ∧ st_log (reset (useFileDialog false only_onChange)) = [].
Proof.
  destruct (no_document_open_reset_silent Unmounted
              (useFileDialog false only_onChange))
    as (Hc & _ & _ & Ho & _ & _ & _ & _ & _ & Hf & Hl);
    [constructor | reflexivity |].
  split; [apply Hc|]. split; [apply Ho; reflexivity|].
  split; [exact Hf | exact Hl].
Defined.

(** Run without a document, the effect itself does not complete: after
    [createInput] has returned null, [document.body] throws. *)
Lemma effect_without_document (s : State) :
  st_document s = false →
  effect s = Throw (ReferenceError "document") (with_inputRef None s).
Proof.
  intros Hd. unfold effect, createInput. rewrite Hd. simpl. by rewrite Hd.
Qed.

(** C9, evaluated: a hook rendered without a document by a caller that
    passes no options, and its effect run once.  [createInput] returns
    null and raises nothing, but the effect that called it, having stored
    that null in the ref, goes on to [document.body] and throws: the
    operation that attaches the trigger is not a silent no-op.  No
    element has been created or attached. *)
Theorem C9_effect_throws_without_document :
  createInput (st_options (useFileDialog false emptyOptions))
              (useFileDialog false emptyOptions)
  = (None, useFileDialog false emptyOptions)
  ∧ mount (useFileDialog false emptyOptions)
    = Throw (ReferenceError "document") (useFileDialog false emptyOptions)
  ∧ st_inputRef (useFileDialog false emptyOptions) = None
  ∧ st_nodes (useFileDialog false emptyOptions) = ∅
  ∧ st_body (useFileDialog false emptyOptions) = [].
Proof.
  do 4 (split; [vm_compute; reflexivity|]). vm_compute; reflexivity.
Qed.

(** * Two runs from first render to pick *)

(** Default configuration with two initial files: before any interaction
    the selection holds the two files in the order given. *)
Example initial_selection_of_two_files :
  fl_items <$> st_files (useFileDialog true with_initialFiles) = Some [5; 6].
Proof. reflexivity. Qed.

(** A caller passing nothing at all: the merged options are the defaults,
    the selection starts null, and the first pick after [open] becomes the
    selection. *)
Example default_options_open_then_pick :
  st_options (useFileDialog true emptyOptions) = defaultOptions
  ∧ st_files (mounted emptyOptions) = None
  ∧ st_log (open (mounted emptyOptions)) = [EvClick 1]
  ∧ st_files (native_change 1 (Some picked) (open (mounted emptyOptions)))
    = Some picked.
Proof. do 3 (split; [vm_compute; reflexivity|]). vm_compute; reflexivity. Qed.

(** * Further properties of the code *)

(** ** Merging the caller's options over the defaults (line 81) *)

Lemma spread_reads_onChange (input : UseFileDialogOptions) :
  read (onChange (spread defaultOptions input)) = read (onChange input).
Proof. simpl. by destruct (onChange input). Qed.

Lemma spread_reads_initialFiles (input : UseFileDialogOptions) :
  read (initialFiles (spread defaultOptions input))
  = read (initialFiles input).
Proof. simpl. by destruct (initialFiles input). Qed.

(** An own property of the caller's object always wins, also when it holds
    undefined; only a property the caller left out falls back to the
    default, and only [multiple] and [accept] have one. *)
Theorem spread_over_defaults (input : UseFileDialogOptions) :
  let options := spread defaultOptions input in
  read (multiple options)
  = match multiple input with
    | Some v => v
    | None => Some true
    end
  ∧ read (accept options)
    = match accept input with
      | Some v => v
      | None => Some "*"%string
      end
  ∧ read (capture options) = read (capture input)
  ∧ read (directory options) = read (directory input)
  ∧ read (resetOnOpen options) = read (resetOnOpen input)
  ∧ read (initialFiles options) = read (initialFiles input)
  ∧ read (onChange options) = read (onChange input)
  ∧ read (onCancel options) = read (onCancel input).
Proof.
  destruct input as [m a c d r f oc ocl]; simpl.
  destruct m, a, c, d, r, f, oc, ocl; by repeat split.
Qed.

(** Merging is idempotent: merging the merged options again changes
    nothing, and a caller that passes nothing gets the defaults. *)
Theorem spread_idempotent (input : UseFileDialogOptions) :
  spread defaultOptions (spread defaultOptions input)
  = spread defaultOptions input
  ∧ spread defaultOptions emptyOptions = defaultOptions.
Proof.
  split; [|done].
  destruct input as [m a c d r f oc ocl]; unfold spread; simpl.
  by destruct m, a, c, d, r, f, oc, ocl.
Qed.

(** ** The element [createInput] builds (lines 57-77) *)

(** The element is a hidden file input with no listener and an empty
    selection.  [accept] and [capture] are copied when they are non-empty
    strings and left at the element's default otherwise; [multiple] and
    [directory] are set exactly when they are true. *)
Theorem createInput_element_attributes (options : UseFileDialogOptions)
    (fresh : nat) :
  let input := createInput_element options fresh in
  in_type input = "file"%string
  ∧ in_display input = "none"%string
  ∧ in_listeners input = []
  ∧ in_files input = Some (mkFileList fresh [])
  ∧ in_accept input
    = (if truthy_string (read (accept options))
       then default EmptyString (read (accept options)) else EmptyString)
  ∧ in_capture input
    = (if truthy_string (read (capture options))
       then default EmptyString (read (capture options)) else EmptyString)
  ∧ in_multiple input = truthy_bool (read (multiple options))
  ∧ in_webkitdirectory input = truthy_bool (read (directory options)).
Proof.
  unfold createInput_element.
  destruct (read (accept options)) as [[|? ?]|],
    (read (multiple options)) as [[]|],
    (read (capture options)) as [[|? ?]|],
    (read (directory options)) as [[]|]; by repeat split.
Qed.

(** A caller that leaves [accept], [multiple], [capture] and [directory]
    out gets a trigger that accepts every file type, allows several files,
    has no capture hint and picks files, not directories. *)
Theorem createInput_element_defaults (input : UseFileDialogOptions)
    (fresh : nat) :
  accept input = absent → multiple input = absent →
  capture input = absent → directory input = absent →
  let e := createInput_element (spread defaultOptions input) fresh in
  in_accept e = "*"%string ∧ in_multiple e = true
  ∧ in_capture e = EmptyString ∧ in_webkitdirectory e = false.
Proof.
  intros Ha Hm Hc Hd. unfold createInput_element, spread. simpl.
  rewrite Ha, Hm, Hc, Hd. by repeat split.
Qed.

Lemma createInput_element_defaults_witness :
  in_accept (createInput_element (spread defaultOptions only_onChange) 3)
  = "*"%string
  ∧ in_multiple (createInput_element (spread defaultOptions only_onChange) 3)
    = true.
Proof.
  destruct (createInput_element_defaults only_onChange 3)
    as (Ha & Hm & _); [reflexivity | reflexivity | reflexivity | reflexivity |].
  split; [exact Ha | exact Hm].
Defined.

Lemma createInput_element_multiple (options : UseFileDialogOptions)
    (fresh : nat) :
  in_multiple (createInput_element options fresh)
  = truthy_bool (read (multiple options)).
Proof.
  unfold createInput_element.
  by destruct (read (accept options)) as [[|? ?]|],
    (read (multiple options)) as [[]|],
    (read (capture options)) as [[|? ?]|],
    (read (directory options)) as [[]|].
Qed.

(** An explicit [multiple: undefined] overrides the default: the trigger
    then allows a single file only. *)
Theorem explicit_undefined_multiple_is_single (input : UseFileDialogOptions)
    (fresh : nat) :
  multiple input = Some None →
  in_multiple (createInput_element (spread defaultOptions input) fresh) = false.
Proof.
  intros Hm. rewrite createInput_element_multiple. simpl. by rewrite Hm.
Qed.

Lemma explicit_undefined_multiple_is_single_witness :
  in_multiple
    (createInput_element
       (spread defaultOptions
          (mkOptions (Some None) absent absent absent absent absent absent
                     absent)) 3)
  = false.
Proof.
  apply explicit_undefined_multiple_is_single. reflexivity.
Defined.

(** ** The store of elements across the operations *)

Section Store.
Implicit Types (s : State) (i j : nat).

Lemma call_onChange_store o arg s :
  st_next (call_onChange o arg s) = st_next s
  ∧ st_body (call_onChange o arg s) = st_body s.
Proof. unfold call_onChange. by destruct (read (onChange o)). Qed.

Lemma fold_change_listener_store (ls : list EventListener) s :
  let s' := fold_left (λ s l, change_listener (l_options l) s) ls s in
  st_next s' = st_next s ∧ st_body s' = st_body s.
Proof.
  revert s. induction ls as [|l ls IH]; intros s; simpl; [done|].
  destruct (IH (change_listener (l_options l) s)) as (-> & ->).
  unfold change_listener. destruct (inputRef_files s); [|done].
  destruct (call_onChange_store (l_options l) (Some f) (setFiles (Some f) s))
    as (-> & ->). done.
Qed.

Lemma lookup_insert_is_Some_same {A : Type} (m : gmap nat A) i j (x y : A) :
  m !! i = Some x → is_Some (<[i := y]> m !! j) ↔ is_Some (m !! j).
Proof.
  intros E. destruct (decide (i = j)) as [->|Hne].
  - rewrite lookup_insert_eq, E. split; eauto.
  - by rewrite lookup_insert_ne.
Qed.

Lemma native_change_store i r s :
  let s' := native_change i r s in
  st_next s' = st_next s ∧ st_body s' = st_body s
  ∧ ∀ j, is_Some (st_nodes s' !! j) ↔ is_Some (st_nodes s !! j).
Proof.
  unfold native_change. destruct (st_nodes s !! i) as [e|] eqn:E; [|done].
  unfold dispatch_change.
  match goal with |- context [fold_left ?f ?ls ?s0] =>
    destruct (fold_change_listener_store ls s0) as (-> & ->);
    destruct (fold_change_listener_frame ls s0) as (-> & _) end.
  simpl. repeat split; try done.
  all: by apply (lookup_insert_is_Some_same _ _ _ e).
Qed.

Lemma set_value_empty_store i s :
  let s' := set_value_empty i s in
  st_next s ≤ st_next s' ∧ st_body s' = st_body s
  ∧ ∀ j, is_Some (st_nodes s' !! j) ↔ is_Some (st_nodes s !! j).
Proof.
  unfold set_value_empty. destruct (st_nodes s !! i) as [e|] eqn:E; [|done].
  simpl. repeat split; try done; try lia.
  all: by apply (lookup_insert_is_Some_same _ _ _ e).
Qed.

Lemma reset_store s :
  st_next s ≤ st_next (reset s) ∧ st_body (reset s) = st_body s
  ∧ ∀ j, is_Some (st_nodes (reset s) !! j) ↔ is_Some (st_nodes s !! j).
Proof.
  unfold reset; simpl. destruct (st_inputRef s) as [i|]; [|done].
  destruct (set_value_empty_store i (setFiles None s)) as (Hn & Hb & Hd).
  match goal with |- context [call_onChange ?o ?a ?t] =>
    destruct (call_onChange_store o a t) as (-> & ->);
    destruct (call_onChange_frame o a t) as (-> & _) end.
  done.
Qed.

Lemma open_store s :
  st_next s ≤ st_next (open s) ∧ st_body (open s) = st_body s
  ∧ ∀ j, is_Some (st_nodes (open s) !! j) ↔ is_Some (st_nodes s !! j).
Proof.
  rewrite open_unfold. simpl.
  destruct (truthy_bool _), (st_inputRef s); simpl;
    try apply reset_store; done.
Qed.

Lemma rerender_store input s :
  st_next s ≤ st_next (rerender input s)
  ∧ st_body (rerender input s) = st_body s.
Proof.
  unfold rerender.
  pose proof (getInitialFilesList_next
                (read (initialFiles (spread defaultOptions input)))
                (st_next s)) as Hn.
  destruct (getInitialFilesList _ _) as [r n]. simpl in *. split; [lia|done].
Qed.

Lemma cleanup_store s :
  st_next (cleanup s) = st_next s
  ∧ st_body (cleanup s)
    = match st_inputRef s with
      | Some i => filter (λ j, j ≠ i) (st_body s)
      | None => st_body s
      end
  ∧ ∀ j, is_Some (st_nodes (cleanup s) !! j) ↔ is_Some (st_nodes s !! j).
Proof.
  unfold cleanup, abort.
  destruct (decide (st_abortController s ∈ st_aborted s)); simpl;
    destruct (st_inputRef s); simpl; repeat split; try done.
  all: rewrite lookup_fmap; by rewrite fmap_is_Some.
Qed.

Lemma effect_normal_store s s' :
  effect s = Normal s' →
  st_next s' = S (S (st_next s))
  ∧ st_body s' = filter (λ j, j ≠ st_next s) (st_body s) ++ [st_next s]
  ∧ st_options s' = st_options s
  ∧ ∀ j, is_Some (st_nodes s' !! j)
         ↔ j = st_next s ∨ is_Some (st_nodes s !! j).
Proof.
  unfold effect, createInput.
  destruct (st_document s) eqn:E; simpl; rewrite E; simpl; [|done].
  intros [= <-]. unfold addEventListener; simpl.
  destruct (decide (st_abortController s ∈ st_aborted s)); simpl.
  - repeat split; try done.
    + rewrite lookup_insert_is_Some. intros [->|[_ H]]; eauto.
    + rewrite lookup_insert_is_Some. intros [->|H]; [by left|].
      destruct (decide (st_next s = j)); [by left | by right].
  - rewrite lookup_insert_eq; simpl. repeat split; try done.
    + rewrite !lookup_insert_is_Some. intros [->|[_ [->|[_ H]]]]; eauto.
    + rewrite !lookup_insert_is_Some. intros [->|H]; [by left|].
      destruct (decide (st_next s = j)); [by left|].
      right. split; [done|]. by right.
Qed.
End Store.

(** ** One trigger at a time *)

Lemma structure_frame (p : Phase) (s s' : State) :
  st_next s ≤ st_next s' → st_body s' = st_body s →
  st_inputRef s' = st_inputRef s →
  (∀ j, is_Some (st_nodes s' !! j) ↔ is_Some (st_nodes s !! j)) →
  (∀ j, is_Some (st_nodes s !! j) → j < st_next s)
  ∧ (∀ i, st_inputRef s = Some i → is_Some (st_nodes s !! i))
  ∧ match p with
    | Unmounted => st_body s = []
    | Mounted => ∃ i, st_inputRef s = Some i ∧ st_body s = [i]
    end →
  (∀ j, is_Some (st_nodes s' !! j) → j < st_next s')
  ∧ (∀ i, st_inputRef s' = Some i → is_Some (st_nodes s' !! i))
  ∧ match p with
    | Unmounted => st_body s' = []
    | Mounted => ∃ i, st_inputRef s' = Some i ∧ st_body s' = [i]
    end.
Proof.
  intros Hn Hb Hr Hd (H1 & H2 & H3). rewrite Hb, Hr. split; [|split].
  - intros j Hj. apply Hd, H1 in Hj. lia.
  - intros i Hi. apply Hd. by apply H2.
  - done.
Qed.

(** In every reachable state: element identities are below the allocation
    counter; the ref, when set, points to an element the hook created;
    and [document.body] holds no trigger while the effect is not mounted
    and exactly the one the ref points to while it is. *)
Lemma reachable_structure (p : Phase) (s : State) :
  reachable p s →
  (∀ j, is_Some (st_nodes s !! j) → j < st_next s)
  ∧ (∀ i, st_inputRef s = Some i → is_Some (st_nodes s !! i))
  ∧ match p with
    | Unmounted => st_body s = []
    | Mounted => ∃ i, st_inputRef s = Some i ∧ st_body s = [i]
    end.
Proof.
  induction 1 as [doc input | s s' _ IH Hm | s e s' _ IH Hm | s _ IH
                 | p input s _ IH | p s _ IH | p s _ IH | p i r s _ IH].
  - unfold useFileDialog. destruct (getInitialFilesList _ _). simpl.
    split; [|done]. intros j. rewrite lookup_empty. by intros [? ?].
  - destruct IH as (H1 & H2 & H3).
    destruct (effect_normal s s' Hm) as (_ & Hr & _).
    destruct (effect_normal_store s s' Hm) as (Hn & Hb & _ & Hd).
    split; [|split].
    + intros j Hj. apply Hd in Hj as [->|Hj]; [lia|].
      apply H1 in Hj. lia.
    + intros i Hi. rewrite Hr in Hi. injection Hi as <-.
      apply Hd. by left.
    + exists (st_next s). by rewrite Hr, Hb, H3.
  - destruct (effect_throws s e s' Hm) as (_ & _ & ->).
    destruct IH as (H1 & H2 & H3). by repeat split.
  - destruct IH as (H1 & H2 & i & Hi & Hb).
    destruct (cleanup_store s) as (Hn & Hb' & Hd).
    destruct (cleanup_frame s) as (Hr & _).
    unfold unmount. rewrite Hi, Hb in Hb'. split; [|split].
    + intros j Hj. rewrite Hn. apply H1. by apply Hd.
    + intros j Hj. rewrite Hr in Hj. apply Hd. by apply H2.
    + rewrite Hb'. rewrite filter_cons, decide_False by (intros Hne; by apply Hne).
      done.
  - destruct (rerender_store input s) as (Hn & Hb).
    destruct (rerender_frame input s) as (En & Hr & _).
    apply (structure_frame p s); try done. intros j. by rewrite En.
  - destruct (open_store s) as (Hn & Hb & Hd).
    destruct (open_frame s) as (_ & Hr & _).
    by apply (structure_frame p s).
  - destruct (reset_store s) as (Hn & Hb & Hd).
    destruct (reset_frame s) as (_ & Hr & _).
    by apply (structure_frame p s).
  - destruct (native_change_store i r s) as (Hn & Hb & Hd).
    destruct (native_change_frame i r s) as (_ & Hr & _).
    apply (structure_frame p s); try done. lia.
Qed.

(** Two triggers are never attached together: [document.body] holds at
    most one, only while the effect is mounted, and then it is the element
    the ref points to; while mounted there is exactly one. *)
Theorem at_most_one_trigger_attached (p : Phase) (s : State) :
  reachable p s →
  length (st_body s) ≤ 1
  ∧ (∀ i, i ∈ st_body s → p = Mounted ∧ st_inputRef s = Some i)
  ∧ (p = Mounted → ∃ i, st_body s = [i])
  ∧ (p = Unmounted → st_body s = []).
Proof.
  intros Hreach.
  destruct (reachable_structure p s Hreach) as (_ & _ & Hb).
  destruct p.
  - rewrite Hb. simpl. split; [lia|]. split; [|done].
    intros i Hi. by apply elem_of_nil in Hi.
  - destruct Hb as (i & Hi & ->). simpl. split; [lia|]. split; [|split].
    + intros j Hj. apply list_elem_of_singleton in Hj. by subst j.
    + intros _. by exists i.
    + done.
Qed.

Lemma at_most_one_trigger_attached_witness :
  st_body (mounted with_initialFiles) = [6]
  ∧ st_body (unmount (mounted with_initialFiles)) = [].
Proof.
  destruct (at_most_one_trigger_attached Unmounted
              (unmount (mounted with_initialFiles)))
    as (_ & _ & _ & Hb); [apply reach_unmount, mounted_reachable|].
  split; [reflexivity | by apply Hb].
Defined.

(** ** The first mount *)

Lemma first_mount_normal (input : UseFileDialogOptions) :
  mount (useFileDialog true input) = Normal (mounted input).
Proof.
  unfold mounted, mount, effect, createInput, useFileDialog.
  by destruct (getInitialFilesList _ _).
Qed.

Lemma useFileDialog_fields (document : bool) (input : UseFileDialogOptions) :
  let s := useFileDialog document input in
  st_aborted s = ∅ ∧ st_options s = spread defaultOptions input
  ∧ st_inputRef s = None ∧ st_body s = [] ∧ st_log s = []
  ∧ st_nodes s = ∅ ∧ st_document s = document.
Proof. unfold useFileDialog. by destruct (getInitialFilesList _ _). Qed.

(** After the first render and the first run of the effect, whatever the
    caller's options, the trigger is attached and heard: a pick reported
    on it becomes the selection, and the caller's [onChange], if there is
    one, is called exactly once, with that collection. *)
Theorem first_mount_delivers_pick (input : UseFileDialogOptions)
    (fl : FileList) :
  ∃ i, st_inputRef (mounted input) = Some i
       ∧ st_body (mounted input) = [i]
       ∧ st_files (native_change i (Some fl) (mounted input)) = Some fl
       ∧ emitted (mounted input) (native_change i (Some fl) (mounted input))
         = match read (onChange input) with
           | Some cb => [EvOnChange cb (Some fl)]
           | None => []
           end.
Proof.
  pose proof (first_mount_normal input) as Hm.
  destruct (useFileDialog_fields true input)
    as (Ha & Ho & _ & Hb & _ & _ & _).
  destruct (effect_normal _ _ Hm) as (_ & Hr & _ & _ & _ & _ & _ & Hl).
  destruct (effect_normal_store _ _ Hm) as (_ & Hb' & _ & _).
  rewrite decide_False in Hl by (rewrite Ha; set_solver).
  exists (st_next (useFileDialog true input)).
  split; [done|]. split; [by rewrite Hb', Hb|].
  destruct (native_change_one_listener _ (Some fl) _ _ Hr Hl eq_refl)
    as (Hf & Hlog).
  split; [done|]. rewrite (emitted_app _ _ _ Hlog). simpl. rewrite Ho.
  by rewrite spread_reads_onChange.
Qed.

(** A change notification calls [onChange] at most once. *)
Theorem native_change_at_most_one_call (p : Phase) (s : State) (i : nat)
    (r : option FileList) :
  reachable p s → length (emitted s (native_change i r s)) ≤ 1.
Proof.
  intros Hreach.
  destruct (reachable_listeners_inv p s Hreach) as [Hlive Hsig Hone].
  destruct (listeners_of s i) as [|l [|l' ls]] eqn:El.
  - destruct (native_change_no_listener i r s El) as (_ & Hl).
    rewrite (emitted_app _ _ []); [simpl; lia|]. by rewrite app_nil_r.
  - destruct (Hlive i) as (_ & Hi & _); [by rewrite El|].
    destruct (Hsig i l) as (_ & Ht); [rewrite El; by left|].
    destruct (native_change_one_listener i r s l Hi El Ht) as (_ & Hl).
    rewrite (emitted_app _ _ _ Hl).
    destruct r, (read (onChange (l_options l))); simpl; lia.
  - specialize (Hone i). rewrite El in Hone. simpl in Hone. lia.
Qed.

Lemma native_change_at_most_one_call_witness :
  length (emitted (mounted only_onChange)
            (native_change 1 (Some picked) (mounted only_onChange))) ≤ 1.
Proof.
  apply (native_change_at_most_one_call Mounted). apply mounted_reachable.
Defined.

(** ** After the teardown *)

Lemma filter_ne_idemp (i : nat) (l : list nat) :
  filter (λ j, j ≠ i) (filter (λ j, j ≠ i) l) = filter (λ j, j ≠ i) l.
Proof.
  induction l as [|x l IH]; [done|].
  rewrite (filter_cons _ x l). destruct (decide (x ≠ i)) as [Hx|Hx]; [|done].
  by rewrite filter_cons, decide_True, IH.
Qed.

(** Running the teardown a second time changes nothing. *)
Theorem cleanup_idempotent (s : State) : cleanup (cleanup s) = cleanup s.
Proof.
  unfold cleanup.
  assert (∀ t, abort (st_abortController t) (abort (st_abortController t) t)
               = abort (st_abortController t) t) as Habort.
  { intros t. unfold abort at 2 3.
    destruct (decide (st_abortController t ∈ st_aborted t)) as [Hin|Hin].
    - unfold abort. by rewrite decide_True.
    - unfold abort. simpl. rewrite decide_True by set_solver. done. }
  destruct (abort_frame (st_abortController s) s) as (Hr & Hc & _).
  destruct (st_inputRef (abort (st_abortController s) s)) as [i|] eqn:Ei.
  - assert (abort (st_abortController (remove i (abort (st_abortController s) s)))
              (remove i (abort (st_abortController s) s))
            = remove i (abort (st_abortController s) s)) as E.
    { simpl. rewrite Hc. unfold abort at 1. simpl.
      destruct (abort_frame (st_abortController s) s) as (_ & _ & _ & _ & Hin).
      by rewrite decide_True. }
    rewrite E. simpl. rewrite Ei. unfold remove, with_body. simpl.
    by rewrite filter_ne_idemp.
  - rewrite Hc, Habort. by rewrite Ei.
Qed.

(** The teardown detaches the trigger but leaves the ref pointing at it:
    a later [open] still clicks the detached element, and a later [reset]
    still calls [onChange(null)]. *)
Theorem unmount_keeps_ref (s : State) :
  reachable Mounted s →
  ∃ i, st_inputRef (unmount s) = Some i
       ∧ st_body (unmount s) = []
       ∧ (∃ evs, st_log (open (unmount s)) = st_log s ++ evs ++ [EvClick i])
       ∧ (∀ cb, read (onChange (st_options s)) = Some cb →
            emitted (unmount s) (reset (unmount s)) = [EvOnChange cb None]).
Proof.
  intros Hreach.
  destruct (reachable_structure Mounted s Hreach) as (_ & _ & i & Hi & _).
  destruct (reachable_structure Unmounted (unmount s)
              (reach_unmount s Hreach)) as (_ & _ & Hb).
  unfold unmount in *.
  destruct (cleanup_frame s) as (Hr & _ & _ & Hl & _).
  assert (st_options (cleanup s) = st_options s) as Ho.
  { unfold cleanup, abort.
    destruct (decide _); simpl; by destruct (st_inputRef s). }
  exists i. split; [by rewrite Hr|]. split; [done|]. split.
  - rewrite open_unfold, Hr, Hi. simpl.
    destruct (truthy_bool _).
    + exists (emitted (cleanup s) (reset (cleanup s))).
      pose proof (reset_log (cleanup s)) as Hrl.
      rewrite (emitted_app _ _ _ Hrl), Hrl, Hl. by rewrite <- app_assoc.
    + exists []. by rewrite Hl.
  - intros cb Hcb. apply emitted_app.
    by rewrite reset_log, Hr, Hi, Ho, Hcb.
Qed.

Lemma unmount_keeps_ref_witness :
  st_inputRef (unmount (mounted only_onChange)) = Some 1
  ∧ st_body (unmount (mounted only_onChange)) = []
  ∧ st_log (open (unmount (mounted only_onChange))) = [EvClick 1].
Proof.
  destruct (unmount_keeps_ref (mounted only_onChange)
              (mounted_reachable only_onChange)) as (i & _ & Hb & _ & _).
  split; [reflexivity|]. split; [exact Hb | reflexivity].
Defined.

(** ** A configuration change *)

Lemma cleanup_options (s : State) : st_options (cleanup s) = st_options s.
Proof.
  unfold cleanup, abort.
  destruct (decide _); simpl; by destruct (st_inputRef s).
Qed.

Lemma rerender_options (input : UseFileDialogOptions) (s : State) :
  st_options (rerender input s) = spread defaultOptions input.
Proof. unfold rerender. by destruct (getInitialFilesList _ _). Qed.

(** A configuration change of a mounted hook replaces the trigger and
    nothing else: the old element is detached and left without listener,
    a brand-new element is attached in its place and becomes the ref, the
    new options are in force, and the selection and the log are as they
    were, whatever [initialFiles] the new options carry. *)
Theorem config_change_replaces_trigger (input : UseFileDialogOptions)
    (s s' : State) :
  reachable Mounted s → config_change input s = Normal s' →
  ∃ old new,
    st_inputRef s = Some old ∧ st_body s = [old]
    ∧ st_inputRef s' = Some new ∧ st_body s' = [new]
    ∧ new ≠ old ∧ st_nodes s !! new = None
    ∧ is_Some (st_nodes s' !! old) ∧ listeners_of s' old = []
    ∧ st_options s' = spread defaultOptions input
    ∧ st_files s' = st_files s ∧ st_log s' = st_log s.
Proof.
  intros Hreach Hc.
  destruct (config_change_reachable input s s' Hreach Hc)
    as (Hreach' & Hab & Hf & Hl).
  destruct (reachable_structure Mounted s Hreach) as (Hbd & Hv & old & Hi & Hb).
  destruct (reachable_structure Mounted s' Hreach') as (_ & _ & new & Hi' & Hb').
  unfold config_change, mount, unmount in Hc.
  destruct (effect_normal _ _ Hc) as (_ & Hr & _).
  destruct (effect_normal_store _ _ Hc) as (_ & _ & Ho & Hd).
  destruct (cleanup_store (rerender input s)) as (Hn & _ & Hd').
  destruct (rerender_store input s) as (Hn' & _).
  destruct (rerender_frame input s) as (En & _).
  rewrite Hr in Hi'. injection Hi' as <-. rewrite Hn in *.
  assert (old < st_next s) as Hold by (apply Hbd, Hv, Hi).
  exists old, (st_next (rerender input s)).
  split; [done|]. split; [done|]. split; [done|]. split; [done|].
  split; [lia|]. split.
  { destruct (st_nodes s !! st_next (rerender input s)) eqn:E; [|done].
    assert (st_next (rerender input s) < st_next s) by (apply Hbd; eauto).
    lia. }
  split.
  { apply Hd. right. apply Hd'. rewrite En. by apply Hv. }
  split; [by apply (aborted_no_listeners Mounted)|].
  split; [by rewrite Ho, cleanup_options, rerender_options|]. done.
Qed.

Lemma config_change_replaces_trigger_witness :
  st_inputRef (mounted with_initialFiles) = Some 6
  ∧ st_inputRef (remounted with_initialFiles) = Some 14
  ∧ st_body (remounted with_initialFiles) = [14]
  ∧ st_files (remounted with_initialFiles) = st_files (mounted with_initialFiles).
Proof.
  destruct (config_change_replaces_trigger with_initialFiles
              (mounted with_initialFiles) (remounted with_initialFiles)
              (mounted_reachable with_initialFiles))
    as (old & new & _ & _ & _ & _ & _ & _ & _ & _ & _ & Hf & _);
    [vm_compute; reflexivity|].
  split; [vm_compute; reflexivity|]. split; [vm_compute; reflexivity|].
  split; [vm_compute; reflexivity | exact Hf].
Defined.

Lemma config_change_deaf_witness :
  st_files (native_change 4 (Some picked) (remounted only_onChange)) = None
  ∧ st_log (native_change 4 (Some picked) (remounted only_onChange)) = [].
Proof.
  apply (config_change_deaf only_onChange (mounted only_onChange)
           (remounted only_onChange) 4 (Some picked)
           (mounted_reachable only_onChange)).
  vm_compute; reflexivity.
Defined.

(** ** Allocation in the normaliser and the first render *)

(** For an array the normaliser returns a collection that is a new
    object: its identity is one that was not in use before the call, so
    normalising the same array again gives a distinct collection, with
    the same items.  A [FileList] or an absent input creates no object. *)
Theorem getInitialFilesList_fresh_collection (files : option InitialFiles)
    (next : nat) :
  match files with
  | Some (IsArray arr) =>
      (∃ fl, (getInitialFilesList files next).1 = Some fl
             ∧ next ≤ fl_id fl < (getInitialFilesList files next).2)
      ∧ (getInitialFilesList files next).1
        ≠ (getInitialFilesList files (getInitialFilesList files next).2).1
      ∧ fl_items <$> (getInitialFilesList files next).1
        = fl_items <$>
            (getInitialFilesList files (getInitialFilesList files next).2).1
  | _ => (getInitialFilesList files next).2 = next
  end.
Proof.
  destruct files as [[fl|arr]|]; [done| |done].
  rewrite !getInitialFilesList_array. simpl. split; [|split].
  - exists (mkFileList (S (S next)) arr). simpl. split; [done|lia].
  - intros [= H]. lia.
  - done.
Qed.

(** The first render: the selection is the caller's [initialFiles]
    normalised (the defaults never supply any), no trigger exists yet,
    nothing is attached, and no callback has been called. *)
Theorem first_render_state (document : bool) (input : UseFileDialogOptions) :
  match read (initialFiles input) with
  | None => st_files (useFileDialog document input) = None
  | Some (IsFileList fl) => st_files (useFileDialog document input) = Some fl
  | Some (IsArray arr) =>
      fl_items <$> st_files (useFileDialog document input) = Some arr
  end
  ∧ st_inputRef (useFileDialog document input) = None
  ∧ st_body (useFileDialog document input) = []
  ∧ st_log (useFileDialog document input) = [].
Proof.
  destruct (useFileDialog_fields document input)
    as (_ & _ & Hr & Hb & Hl & _ & _).
  split; [|done]. rewrite useFileDialog_initial_files.
  rewrite spread_reads_initialFiles.
  destruct (read (initialFiles input)) as [[fl|arr]|]; [done| |done].
  by rewrite getInitialFilesList_array.
Qed.

(** ** [createInput] and the effect in the page *)

(** With a document, in any reachable state, [createInput] returns an
    element that did not exist before, configured from the options, and
    does not attach it: [document.body] and every existing element are as
    before. *)
Theorem createInput_fresh_element (p : Phase) (options : UseFileDialogOptions)
    (s : State) :
  reachable p s → st_document s = true →
  ∃ i, (createInput options s).1 = Some i
       ∧ st_nodes s !! i = None
       ∧ st_nodes (createInput options s).2 !! i
         = Some (createInput_element options (S i))
       ∧ (∀ j, j ≠ i →
            st_nodes (createInput options s).2 !! j = st_nodes s !! j)
       ∧ st_body (createInput options s).2 = st_body s
       ∧ i ∉ st_body s.
Proof.
  intros Hreach Hd.
  destruct (reachable_structure p s Hreach) as (Hbd & Hv & Hb).
  assert (st_nodes s !! st_next s = None) as Hnew.
  { destruct (st_nodes s !! st_next s) eqn:E; [|done].
    assert (st_next s < st_next s) by (apply Hbd; eauto). lia. }
  exists (st_next s). unfold createInput. rewrite Hd. simpl.
  split; [done|]. split; [done|]. split; [by rewrite lookup_insert_eq|].
  split; [intros j Hj; by rewrite lookup_insert_ne|]. split; [done|].
  destruct p.
  - rewrite Hb. apply not_elem_of_nil.
  - destruct Hb as (i & Hi & ->). intros Hin.
    apply list_elem_of_singleton in Hin. subst i.
    apply Hv in Hi. rewrite Hnew in Hi. by destruct Hi.
Qed.

Lemma createInput_fresh_element_witness :
  (createInput defaultOptions (mounted only_onChange)).1 = Some 3
  ∧ st_body (createInput defaultOptions (mounted only_onChange)).2 = [1].
Proof.
  destruct (createInput_fresh_element Mounted defaultOptions
              (mounted only_onChange) (mounted_reachable only_onChange))
    as (i & _ & _ & _ & _ & Hb & _); [reflexivity|].
  split; [reflexivity|]. rewrite Hb. reflexivity.
Defined.

(** The effect completes exactly when there is a document.  Without one
    it leaves the ref null, creates and attaches nothing, and throws at
    [document.body]. *)
Theorem effect_completion (s : State) :
  effect s
  = if st_document s then Normal (completion_state (effect s))
    else Throw (ReferenceError "document") (with_inputRef None s).
Proof.
  destruct (st_document s) eqn:Hd; [|by apply effect_without_document].
  unfold effect, createInput. rewrite Hd. simpl. by rewrite Hd.
Qed.

Lemma reset_without_callback_witness :
  st_inputRef (mounted emptyOptions) = Some 1
  ∧ st_log (reset (mounted emptyOptions)) = st_log (mounted emptyOptions).
Proof.
  split; [reflexivity|].
  apply (reset_without_callback (mounted emptyOptions)). reflexivity.
Defined.
